(** * Environment provisioner of simple-identity-server

    A shallow embedding of [code/SimpleIdentityServer/create-env-vars.py]:
    the module-level dictionary [env_vars] and the procedure
    [set_env_vars], which first assigns every entry to [os.environ] and
    then persists the entries with [setx ... /M] on Windows or by
    appending to [/etc/environment] on Linux.

    Python's effects are threaded through a small state-and-exception
    monad over a [world] holding the process environment table, the file
    system and the log of effects performed so far. *)

From Stdlib Require Import String Ascii.
From stdpp Require Import gmap strings list fin_maps.

(** ** Python strings *)

(** The two characters that the source writes inside f-strings and that a
    literal cannot hold directly. *)
Definition dquote : ascii := "034"%char.
Definition newline : ascii := "010"%char.

(** [str.startswith]: [startswith s p] is Python's [s.startswith(p)]. *)
Definition startswith (s p : string) : bool := String.prefix p s.

(** ** The embedded configuration *)

(** The dictionary literal [env_vars], in insertion order (the order in
    which [dict.items()] yields it).  The backslashes in the two Kestrel
    paths are followed by [d], [s] and [i], none of which is an escape
    sequence in Python, so they stay in the value as they are. *)
Definition env_vars : list (string * string) :=
  [ ("SIMPLE_IDENTITY_SERVER_DB_PASSWORD", "sample@Strong23Password");
    ("SIMPLE_IDENTITY_SERVER_CERT_PASSWORD", "SharedCertPassword123!");
    ("ASPNETCORE_ENVIRONMENT", "Production");
    ("ASPNETCORE_URLS", "https://+:443");
    ("Kestrel__Certificates__Default__Path", "c:\dev\ssl\identity-dev-test.crt");
    ("Kestrel__Certificates__Default__KeyPath", "c:\dev\ssl\identity-dev-test.key");
    ("SIMPLE_IDENTITY_SERVER_DEFAULT_CONNECTION_STRING",
     "Server=.,14333;Database=SimpleIdentityServer;MultipleActiveResultSets=true;uid=sa;pwd=sample@Strong23Password;TrustServerCertificate=true;Encrypt=true");
    ("SIMPLE_IDENTITY_SERVER_SECURITY_LOGS_CONNECTION_STRING",
     "Server=.,14333;Database=SimpleIdentityServerSecurityLogs;MultipleActiveResultSets=true;uid=sa;pwd=sample@Strong23Password;TrustServerCertificate=true;Encrypt=true") ].

(** ** The f-strings of [set_env_vars] *)

(** [f"Set {key} for current process."] *)
Definition msg_process (key : string) : string :=
  "Set " +:+ key +:+ " for current process.".

(** [f'setx {key} "{value}" /M'] *)
Definition setx_command (key value : string) : string :=
  "setx " +:+ key +:+ " " +:+ String dquote (value +:+ String dquote " /M").

(** [f"Set {key} system-wide (Windows)."] *)
Definition msg_windows (key : string) : string :=
  "Set " +:+ key +:+ " system-wide (Windows).".

(** [f'{key}="{value}"\n'] *)
Definition env_file_line (key value : string) : string :=
  key +:+ "=" +:+ String dquote (value +:+ String dquote (String newline "")).

(** [f"Appended {key} to /etc/environment (Linux)."] *)
Definition msg_linux (key : string) : string :=
  "Appended " +:+ key +:+ " to /etc/environment (Linux).".

Definition etc_environment : string := "/etc/environment".

(** ** Hosts, worlds and effects *)

(** What the script reads from the machine it runs on: [sys.platform],
    and whether the operating system lets this process open a given path
    for appending. *)
Record host := Host {
  sys_platform : string;
  may_append : string → bool
}.

(** The calls with an effect outside the interpreter, in the order made. *)
Inductive event :=
  | EnvAssign (key value : string)   (* os.environ[key] = value *)
  | Print (line : string)            (* print(line) *)
  | ShellRun (cmd : string)          (* subprocess.run(cmd, shell=True) *)
  | Open (path mode : string)        (* open(path, mode) was called *)
  | Write (path data : string)       (* env_file.write(data) *)
  | Close (path : string).           (* leaving the with block *)

#[global] Instance event_eq_dec : EqDecision event.
Proof. solve_decision. Defined.

Record world := World {
  environ : gmap string string;      (* os.environ *)
  files : gmap string string;        (* contents of the files that exist *)
  trace : list event                 (* oldest effect first *)
}.

Inductive exn :=
  | OSError (path : string)          (* raised by a refused open() *)
  | ValueError (message : string).   (* raised by os.environ for what it refuses *)

Inductive result (A : Type) :=
  | Return (a : A)
  | Raise (e : exn).
Arguments Return {A} a.
Arguments Raise {A} e.

(** A Python computation: it may change the world and either returns or
    raises; what it changed before raising stays changed. *)
Definition py (A : Type) : Type := world → result A * world.

#[global] Instance py_ret : MRet py := λ A a w, (Return a, w).
#[global] Instance py_bind : MBind py := λ A B f c w,
  match c w with
  | (Return a, w') => f a w'
  | (Raise e, w') => (Raise e, w')
  end.

Definition log (e : event) (w : world) : world :=
  World (environ w) (files w) (trace w ++ [e]).

(** [os.environ[key] = value], for a name and a value that the table
    takes: this is so for every entry of [env_vars] (lemma
    [env_vars_accepted] below); [environ_setitem_checked] is the
    assignment that can be refused.  The table is read by the name as
    written; on win32, where the interpreter folds the case of names,
    this describes the lookup of the configured names, which stay
    distinct, and statements about other names are made for the other
    platforms only. *)
Definition environ_setitem (key value : string) : py () := λ w,
  (Return (), log (EnvAssign key value)
                  (World (<[key := value]> (environ w)) (files w) (trace w))).

(** [print(line)] *)
Definition print (line : string) : py () := λ w,
  (Return (), log (Print line) w).

(** [subprocess.run(cmd, shell=True)]: the command line is handed to the
    shell; the [CompletedProcess] it returns is dropped by the caller and
    no [check] is requested, so whether [setx] succeeds has no influence
    on the run. *)
Definition subprocess_run (cmd : string) : py () := λ w,
  (Return (), log (ShellRun cmd) w).

(** The text of a file, the empty text when there is no such file. *)
Definition content (fs : gmap string string) (path : string) : string :=
  default "" (fs !! path).

(** [open(path, "a")]: raises when the host refuses; otherwise the file
    exists afterwards (created empty when it was missing) and the handle
    is returned. *)
Definition open_append (h : host) (path : string) : py string := λ w,
  if may_append h path then
    (Return path,
     log (Open path "a")
         (World (environ w) (<[path := content (files w) path]> (files w)) (trace w)))
  else (Raise (OSError path), log (Open path "a") w).

(** [env_file.write(data)] on a handle opened for appending. *)
Definition file_write (path data : string) : py () := λ w,
  (Return (), log (Write path data)
                  (World (environ w)
                         (<[path := content (files w) path +:+ data]> (files w))
                         (trace w))).

Definition file_close (path : string) : py () := λ w,
  (Return (), log (Close path) w).

(** [with open(path, "a") as f: body]: a raising open skips the body;
    after an opened file the handle is closed however the body ends. *)
Definition with_open_append {A} (h : host) (path : string)
    (body : string → py A) : py A := λ w,
  match open_append h path w with
  | (Raise e, w') => (Raise e, w')
  | (Return f, w') =>
      let '(r, w'') := body f w' in
      (r, snd (file_close f w''))
  end.

(** [for key, value in items: body] *)
Fixpoint for_items (items : list (string * string))
    (body : string → string → py ()) : py () :=
  match items with
  | [] => mret ()
  | (key, value) :: rest => body key value ;; for_items rest body
  end.

(** ** The procedure *)

Definition set_env_vars (h : host) : py () :=
  (* Set for current process *)
  for_items env_vars (λ key value,
    environ_setitem key value ;;
    print (msg_process key)) ;;
  (* Set persistently, if desired *)
  if String.eqb (sys_platform h) "win32" then
    for_items env_vars (λ key value,
      subprocess_run (setx_command key value) ;;
      print (msg_windows key))
  else if startswith (sys_platform h) "linux" then
    with_open_append h etc_environment (λ env_file,
      for_items env_vars (λ key value,
        file_write env_file (env_file_line key value) ;;
        print (msg_linux key)))
  else mret ().

(** ** Reading the platform and the trace *)

(** The three ways the persistence phase can go, as decided by the two
    tests on [sys.platform], in the order the source makes them. *)
Inductive platform_kind := Windows | Linux | Other.

#[global] Instance platform_kind_eq_dec : EqDecision platform_kind.
Proof. solve_decision. Defined.

Definition classify (platform : string) : platform_kind :=
  if String.eqb platform "win32" then Windows
  else if startswith platform "linux" then Linux
  else Other.

(** Projections of a trace onto one kind of call. *)
Definition env_assigns (evs : list event) : list (string * string) :=
  omap (λ e, match e with EnvAssign k v => Some (k, v) | _ => None end) evs.
Definition printed (evs : list event) : list string :=
  omap (λ e, match e with Print l => Some l | _ => None end) evs.
Definition shell_runs (evs : list event) : list string :=
  omap (λ e, match e with ShellRun c => Some c | _ => None end) evs.
Definition opens (evs : list event) : list (string * string) :=
  omap (λ e, match e with Open p m => Some (p, m) | _ => None end) evs.
Definition writes (evs : list event) : list (string * string) :=
  omap (λ e, match e with Write p d => Some (p, d) | _ => None end) evs.

(** The platform branch an effect belongs to, if it is a persistence
    action at all. *)
Definition branch_of (e : event) : option platform_kind :=
  match e with
  | ShellRun _ => Some Windows
  | Open _ _ | Write _ _ | Close _ => Some Linux
  | EnvAssign _ _ | Print _ => None
  end.

Definition is_persistence (e : event) : bool := bool_decide (is_Some (branch_of e)).
Definition is_env_assign (e : event) : bool :=
  match e with EnvAssign _ _ => true | _ => false end.

(** The branches that left a persistence action in a trace. *)
Definition branches (evs : list event) : list platform_kind :=
  remove_dups (omap branch_of evs).

(** The effects of one run started in [w]: what the run added to the trace. *)
Definition effects (h : host) (w : world) : list event :=
  drop (length (trace w)) (trace (set_env_vars h w).2).

(** Number of occurrences of a character in a string. *)
Fixpoint count_char (c : ascii) (s : string) : nat :=
  match s with
  | EmptyString => 0
  | String a s' => (if Ascii.eqb a c then 1 else 0) + count_char c s'
  end.

(** ** The shape of a line of the environment file *)

(** The pattern [NAME="VALUE"] that the specification gives for a line of
    the environment file, as a recogniser reading from the left: a
    non-empty name free of [=], double quotes and line breaks, then [=],
    an opening double quote, a value free of double quotes and line
    breaks, the closing double quote, the line break, and nothing after
    it.  This is the reading of the file's format, not code of the
    script, which checks nothing. *)
Fixpoint value_then_eol (s : string) : bool :=
  match s with
  | EmptyString => false
  | String c rest =>
      if Ascii.eqb c dquote then String.eqb rest (String newline "")
      else if Ascii.eqb c newline then false
      else value_then_eol rest
  end.

Fixpoint name_then_value (s : string) : bool :=
  match s with
  | EmptyString => false
  | String c rest =>
      if Ascii.eqb c "=" then
        match rest with
        | String q body => Ascii.eqb q dquote && value_then_eol body
        | EmptyString => false
        end
      else if Ascii.eqb c dquote || Ascii.eqb c newline then false
      else name_then_value rest
  end.

Definition well_formed_line (s : string) : bool :=
  match s with
  | EmptyString => false
  | String c _ => negb (Ascii.eqb c "=") && name_then_value s
  end.

(** Some concrete machines and a pristine world to run the script on. *)
Definition linux_host : host := Host "linux" (λ _, true).
Definition readonly_linux_host : host := Host "linux" (λ _, false).
Definition windows_host : host := Host "win32" (λ _, true).
Definition darwin_host : host := Host "darwin" (λ _, true).
Definition empty_world : world := World ∅ ∅ [].

(** Worlds that already hold something the run touches. *)
Definition world_with_old_url : world :=
  World {[ "ASPNETCORE_URLS" := "http://localhost:5000" ]} ∅ [].
Definition world_with_lang_line : world :=
  World ∅ {[ etc_environment := "LANG=C" +:+ String newline "" ]} [].
Definition busy_world : world :=
  World {[ "HOME" := "/root" ]} ∅ [Print "starting"].
Definition linux2_host : host := Host "linux2" (λ _, true).

(** ** Closed forms of the loops and of a run *)

(** The definitions below are not code of the script: they describe what
    its loops and branches amount to, and [set_env_vars_closed] proves
    that [set_env_vars] computes exactly this. *)

Definition assign_all (items : list (string * string))
    (env : gmap string string) : gmap string string :=
  foldl (λ m kv, <[kv.1 := kv.2]> m) env items.

Definition process_events (items : list (string * string)) : list event :=
  flat_map (λ kv, [EnvAssign kv.1 kv.2; Print (msg_process kv.1)]) items.

Definition windows_events (items : list (string * string)) : list event :=
  flat_map (λ kv, [ShellRun (setx_command kv.1 kv.2); Print (msg_windows kv.1)]) items.

Definition write_events (path : string) (items : list (string * string)) : list event :=
  flat_map (λ kv, [Write path (env_file_line kv.1 kv.2); Print (msg_linux kv.1)]) items.

(** The text the Linux loop appends: the lines of the entries, in order. *)
Definition env_file_block (items : list (string * string)) : string :=
  foldr (λ kv rest, env_file_line kv.1 kv.2 +:+ rest) "" items.

(** What the persistence phase does on a host, read off the closed forms
    of the loops: it depends on the host only. *)
Definition persistence_events (h : host) : list event :=
  match classify (sys_platform h) with
  | Windows => windows_events env_vars
  | Linux =>
      if may_append h etc_environment
      then [Open etc_environment "a"] ++ write_events etc_environment env_vars
           ++ [Close etc_environment]
      else [Open etc_environment "a"]
  | Other => []
  end.

Definition persisted_files (h : host) (fs : gmap string string) : gmap string string :=
  match classify (sys_platform h) with
  | Linux =>
      if may_append h etc_environment
      then <[etc_environment := content fs etc_environment +:+ env_file_block env_vars]> fs
      else fs
  | Windows | Other => fs
  end.

Definition outcome (h : host) : result () :=
  match classify (sys_platform h) with
  | Linux =>
      if may_append h etc_environment then Return ()
      else Raise (OSError etc_environment)
  | Windows | Other => Return ()
  end.

(** ** The procedure over any dictionary, and repeated runs *)

(** What [os.environ[key] = value] accepts where names are case-sensitive
    (every platform but win32): [os.putenv] refuses a NUL byte in the
    name or in the value, an empty name and a name with [=] in it, with
    a [ValueError], and then nothing is stored.  No entry of the literal
    [env_vars] is refused, which is why [environ_setitem] above has no
    such case. *)
Definition nul : ascii := "000"%char.

Definition environ_accepts (key value : string) : bool :=
  bool_decide (count_char nul key = 0 ∧ count_char nul value = 0
               ∧ key ≠ "" ∧ count_char "="%char key = 0).

Definition refusal_message (key value : string) : string :=
  if bool_decide (count_char nul key = 0 ∧ count_char nul value = 0)
  then "illegal environment variable name"
  else "embedded null byte".

Definition environ_setitem_checked (key value : string) : py () := λ w,
  if environ_accepts key value then environ_setitem key value w
  else (Raise (ValueError (refusal_message key value)), w).

(** A dictionary every entry of which [os.environ] accepts. *)
Definition accepted (d : list (string * string)) : Prop :=
  Forall (λ kv, environ_accepts kv.1 kv.2 = true) d.

(** [env_vars] is a module-level name that [set_env_vars] looks up when
    it runs, so a caller that imports the module can rebind or update
    the dictionary first.  [set_env_vars_from d] is the body of
    [set_env_vars] with the dictionary [d] then bound to the name, given
    as its items in insertion order (a dictionary has no key twice), and
    with the assignment that can be refused.  It is meant for hosts
    whose [sys.platform] is not [win32]: there the table folds the case
    of names and has its own limits. *)
Definition set_env_vars_from (d : list (string * string)) (h : host) : py () :=
  for_items d (λ key value,
    environ_setitem_checked key value ;;
    print (msg_process key)) ;;
  if String.eqb (sys_platform h) "win32" then
    for_items d (λ key value,
      subprocess_run (setx_command key value) ;;
      print (msg_windows key))
  else if startswith (sys_platform h) "linux" then
    with_open_append h etc_environment (λ env_file,
      for_items d (λ key value,
        file_write env_file (env_file_line key value) ;;
        print (msg_linux key)))
  else mret ().

Definition effects_from (d : list (string * string)) (h : host) (w : world) : list event :=
  drop (length (trace w)) (trace (set_env_vars_from d h w).2).

(** The script started [n] times, one run after the other. *)
Fixpoint run_times (n : nat) (h : host) : py () :=
  match n with
  | 0 => mret ()
  | S n' => set_env_vars h ;; run_times n' h
  end.

Fixpoint repeat_string (n : nat) (s : string) : string :=
  match n with
  | 0 => ""
  | S n' => s +:+ repeat_string n' s
  end.

(** [reports a line]: [line] is the progress line that the source prints
    right after the action [a] on some entry of [env_vars]. *)
Definition reports (a : event) (line : string) : bool :=
  existsb (λ kv,
      bool_decide (a = EnvAssign kv.1 kv.2 ∧ line = msg_process kv.1)
      || bool_decide (a = ShellRun (setx_command kv.1 kv.2) ∧ line = msg_windows kv.1)
      || bool_decide (a = Write etc_environment (env_file_line kv.1 kv.2)
                      ∧ line = msg_linux kv.1))
    env_vars.

(** Every progress line of [evs] comes right after an action it reports;
    [prev] is the effect before the first of [evs]. *)
Fixpoint lines_follow_actions (prev : option event) (evs : list event) : bool :=
  match evs with
  | [] => true
  | e :: rest =>
      match e with
      | Print line => from_option (λ a, reports a line) false prev
      | _ => true
      end && lines_follow_actions (Some e) rest
  end.

(** The actions on files among the effects. *)
Definition file_actions (evs : list event) : list event :=
  filter (λ e, branch_of e = Some Linux) evs.

(** Names and values that fit the pattern of a line. *)
Definition clean_value (s : string) : bool :=
  bool_decide (count_char dquote s = 0 ∧ count_char newline s = 0).
Definition clean_name (s : string) : bool :=
  bool_decide (s ≠ "" ∧ count_char "="%char s = 0
               ∧ count_char dquote s = 0 ∧ count_char newline s = 0).

(** Closed forms for any dictionary, as [persistence_events] and
    [persisted_files] are for [env_vars]. *)
Definition persistence_events_from (d : list (string * string)) (h : host) : list event :=
  match classify (sys_platform h) with
  | Windows => windows_events d
  | Linux =>
      if may_append h etc_environment
      then [Open etc_environment "a"] ++ write_events etc_environment d
           ++ [Close etc_environment]
      else [Open etc_environment "a"]
  | Other => []
  end.

Definition persisted_files_from (d : list (string * string)) (h : host)
    (fs : gmap string string) : gmap string string :=
  match classify (sys_platform h) with
  | Linux =>
      if may_append h etc_environment
      then <[etc_environment := content fs etc_environment +:+ env_file_block d]> fs
      else fs
  | Windows | Other => fs
  end.

(** Line breaks inside the names and values of a dictionary. *)
Definition inner_newlines (d : list (string * string)) : nat :=
  foldr (λ kv n, count_char newline kv.1 + count_char newline kv.2 + n) 0 d.

Lemma string_app_cons a s t : String a s +:+ t = String a (s +:+ t).
Proof. reflexivity. Qed.

Lemma string_app_nil_r s : s +:+ "" = s.
Proof. induction s as [|a s IH]; [done|]. by rewrite string_app_cons, IH. Qed.

Lemma string_app_assoc s t u : (s +:+ t) +:+ u = s +:+ t +:+ u.
Proof. induction s as [|a s IH]; [done|]. by rewrite !string_app_cons, IH. Qed.

Lemma py_bind_unfold {A B} (f : A → py B) (c : py A) w :
  (c ≫= f) w = match c w with
               | (Return a, w') => f a w'
               | (Raise e, w') => (Raise e, w')
               end.
Proof. reflexivity. Qed.

(** A loop whose body never raises is a left fold of the body's effect. *)
Lemma for_items_total body (step : string → string → world → world) :
  (∀ k v w, body k v w = (Return (), step k v w)) →
  ∀ items w,
    for_items items body w = (Return (), foldl (λ w kv, step kv.1 kv.2 w) w items).
Proof.
  intros Hbody. induction items as [|[k v] items IH]; intros w; [done|].
  cbn [for_items foldl fst snd]. rewrite py_bind_unfold, Hbody. apply IH.
Qed.

Lemma for_items_process items w :
  for_items items (λ key value,
    environ_setitem key value ;; print (msg_process key)) w
  = (Return (), World (assign_all items (environ w)) (files w)
                      (trace w ++ process_events items)).
Proof.
  erewrite for_items_total by (intros; reflexivity). f_equal.
  revert w. induction items as [|[k v] items IH]; intros [env fs tr]; cbn.
  - by rewrite app_nil_r.
  - rewrite IH. cbn. by rewrite <- !app_assoc.
Qed.

Lemma for_items_windows items w :
  for_items items (λ key value,
    subprocess_run (setx_command key value) ;; print (msg_windows key)) w
  = (Return (), World (environ w) (files w) (trace w ++ windows_events items)).
Proof.
  erewrite for_items_total by (intros; reflexivity). f_equal.
  revert w. induction items as [|[k v] items IH]; intros [env fs tr]; cbn.
  - by rewrite app_nil_r.
  - rewrite IH. cbn. by rewrite <- !app_assoc.
Qed.

Lemma for_items_linux path items w :
  is_Some (files w !! path) →
  for_items items (λ key value,
    file_write path (env_file_line key value) ;; print (msg_linux key)) w
  = (Return (),
     World (environ w)
           (<[path := content (files w) path +:+ env_file_block items]> (files w))
           (trace w ++ write_events path items)).
Proof.
  intros Hex. erewrite for_items_total by (intros; reflexivity). f_equal.
  revert w Hex. induction items as [|[k v] items IH]; intros [env fs tr] [c Hc]; cbn in *.
  - rewrite app_nil_r, string_app_nil_r. unfold content. rewrite Hc. cbn.
    by rewrite insert_id.
  - rewrite IH by (cbn; rewrite lookup_insert_eq; eauto). cbn.
    rewrite <- !app_assoc. f_equal.
    unfold content at 1. rewrite lookup_insert_eq. cbn.
    by rewrite insert_insert_eq, string_app_assoc.
Qed.

(** ** The run in closed form *)

Lemma set_env_vars_closed h w :
  set_env_vars h w =
    (outcome h,
     World (assign_all env_vars (environ w))
           (persisted_files h (files w))
           (trace w ++ process_events env_vars ++ persistence_events h)).
Proof.
  unfold set_env_vars, outcome, persisted_files, persistence_events, classify.
  rewrite py_bind_unfold, for_items_process.
  destruct (String.eqb (sys_platform h) "win32").
  { rewrite for_items_windows. cbn [environ files trace].
    by rewrite <- app_assoc. }
  destruct (startswith (sys_platform h) "linux"); cycle 1.
  { unfold mret, py_ret. by rewrite app_nil_r. }
  unfold with_open_append, open_append.
  destruct (may_append h etc_environment); cbn [log environ files trace].
  - rewrite for_items_linux by (cbn; rewrite lookup_insert_eq; eauto).
    unfold file_close, log. cbn [snd environ files trace]. do 2 f_equal.
    + unfold content at 1. rewrite lookup_insert_eq. cbn [default].
      by rewrite insert_insert_eq.
    + by rewrite <- !app_assoc.
  - unfold log. cbn [environ files trace]. by rewrite <- app_assoc.
Qed.

Lemma effects_closed h w :
  effects h w = process_events env_vars ++ persistence_events h.
Proof.
  unfold effects. rewrite set_env_vars_closed. cbn [snd trace].
  by rewrite drop_app_length.
Qed.

Lemma trace_effects h w :
  trace (set_env_vars h w).2 = trace w ++ effects h w.
Proof. by rewrite effects_closed, set_env_vars_closed. Qed.

(** ** The environment table after the process-scope loop *)

Lemma assign_all_union items (env : gmap string string) :
  assign_all items env = list_to_map (reverse items) ∪ env.
Proof.
  revert env. induction items as [|[k v] items IH]; intros env.
  - cbn. by rewrite (left_id_L ∅ (∪)).
  - cbn [assign_all foldl fst snd]. fold (assign_all items (<[k:=v]> env)).
    rewrite IH, reverse_cons, list_to_map_app. cbn.
    rewrite insert_empty, <- (assoc_L (∪)). f_equal.
    by rewrite insert_union_singleton_l.
Qed.

Lemma assign_all_idemp items (env : gmap string string) :
  assign_all items (assign_all items env) = assign_all items env.
Proof.
  rewrite !assign_all_union.
  by rewrite (assoc_L (∪)), (idemp_L (∪)).
Qed.

Lemma assign_all_lookup_other items (env : gmap string string) k :
  k ∉ items.*1 → assign_all items env !! k = env !! k.
Proof.
  revert env. induction items as [|[k' v'] items IH]; intros env Hk; [done|].
  cbn in Hk. apply not_elem_of_cons in Hk as [Hne Hk].
  cbn [assign_all foldl fst snd]. fold (assign_all items (<[k':=v']> env)).
  rewrite IH by done. by rewrite lookup_insert_ne.
Qed.

Lemma assign_all_lookup items (env : gmap string string) k v :
  NoDup items.*1 → (k, v) ∈ items → assign_all items env !! k = Some v.
Proof.
  revert env. induction items as [|[k' v'] items IH]; intros env Hnd Hin.
  - by apply elem_of_nil in Hin.
  - cbn in Hnd. apply NoDup_cons in Hnd as [Hfresh Hnd].
    cbn [assign_all foldl fst snd]. fold (assign_all items (<[k':=v']> env)).
    apply elem_of_cons in Hin as [Heq|Hin].
    + inversion Heq; subst k' v'.
      rewrite assign_all_lookup_other by done. apply lookup_insert_eq.
    + by apply IH.
Qed.


Lemma env_vars_keys_NoDup : NoDup env_vars.*1.
Proof. apply (bool_decide_unpack _). vm_compute. exact I. Qed.

Lemma env_assigns_process_events items :
  env_assigns (process_events items) = items.
Proof. induction items as [|[k v] items IH]; cbn; by f_equal. Qed.

Lemma env_assigns_persistence_events h :
  env_assigns (persistence_events h) = [].
Proof.
  unfold persistence_events.
  destruct (classify _); [| destruct (may_append _ _) |]; reflexivity.
Qed.

Lemma env_assigns_app evs1 evs2 :
  env_assigns (evs1 ++ evs2) = env_assigns evs1 ++ env_assigns evs2.
Proof. apply omap_app. Qed.

(** ** Claims about the process-scope phase *)

(** C1: after a run of [set_env_vars] that returned normally, on whatever
    platform and from whatever earlier environment table, every entry
    [(key, value)] of [env_vars] is in the table: [os.environ[key]] is
    exactly [value], whatever was bound to [key] before. *)
Theorem environ_maps_every_entry h w w' key value :
  set_env_vars h w = (Return (), w') →
  (key, value) ∈ env_vars →
  environ w' !! key = Some value.
Proof.
  intros Hrun Hin. apply (f_equal snd) in Hrun.
  rewrite set_env_vars_closed in Hrun. cbn [snd] in Hrun. subst w'.
  cbn [environ]. apply assign_all_lookup; [apply env_vars_keys_NoDup | done].
Qed.

(** A Linux run over a table that already binds [ASPNETCORE_URLS]: the
    old binding is gone, the configured one is there. *)
Lemma environ_maps_every_entry_witness :
  environ world_with_old_url !! "ASPNETCORE_URLS" = Some "http://localhost:5000" ∧
  environ (set_env_vars linux_host world_with_old_url).2 !! "ASPNETCORE_URLS"
  = Some "https://+:443".
Proof.
  split; [reflexivity|].
  apply (environ_maps_every_entry linux_host world_with_old_url
           (set_env_vars linux_host world_with_old_url).2).
  - vm_compute. reflexivity.
  - vm_compute. do 3 right. left.
Defined.



Lemma count_char_app c s t :
  count_char c (s +:+ t) = count_char c s + count_char c t.
Proof.
  induction s as [|a s IH]; [done|].
  rewrite string_app_cons. cbn [count_char]. rewrite IH. lia.
Qed.

(** ** Projections of the closed forms *)

Section projections.
Context (path : string) (items : list (string * string)).

Local Ltac by_items :=
  induction items as [|[k v] rest IH]; cbn; by f_equal.

Lemma writes_process_events : writes (process_events items) = [].
Proof. by_items. Qed.
Lemma writes_windows_events : writes (windows_events items) = [].
Proof. by_items. Qed.
Lemma writes_write_events :
  writes (write_events path items)
  = map (λ kv, (path, env_file_line kv.1 kv.2)) items.
Proof. by_items. Qed.

Lemma shell_runs_process_events : shell_runs (process_events items) = [].
Proof. by_items. Qed.
Lemma shell_runs_windows_events :
  shell_runs (windows_events items) = map (λ kv, setx_command kv.1 kv.2) items.
Proof. by_items. Qed.
Lemma shell_runs_write_events : shell_runs (write_events path items) = [].
Proof. by_items. Qed.

Lemma opens_process_events : opens (process_events items) = [].
Proof. by_items. Qed.
Lemma opens_windows_events : opens (windows_events items) = [].
Proof. by_items. Qed.
Lemma opens_write_events : opens (write_events path items) = [].
Proof. by_items. Qed.

Lemma branch_of_process_events : omap branch_of (process_events items) = [].
Proof. by_items. Qed.

Lemma printed_process_events :
  printed (process_events items) = map (λ kv, msg_process kv.1) items.
Proof. by_items. Qed.
End projections.

Lemma persistence_events_linux h :
  classify (sys_platform h) = Linux →
  may_append h etc_environment = true →
  persistence_events h
  = [Open etc_environment "a"] ++ write_events etc_environment env_vars
    ++ [Close etc_environment].
Proof. intros Hk Hopen. unfold persistence_events. by rewrite Hk, Hopen. Qed.

Lemma persistence_events_refused h :
  classify (sys_platform h) = Linux →
  may_append h etc_environment = false →
  persistence_events h = [Open etc_environment "a"].
Proof. intros Hk Hopen. unfold persistence_events. by rewrite Hk, Hopen. Qed.

Lemma returned_linux_opened h w w' :
  classify (sys_platform h) = Linux →
  set_env_vars h w = (Return (), w') →
  may_append h etc_environment = true.
Proof.
  intros Hk Hrun. apply (f_equal fst) in Hrun.
  rewrite set_env_vars_closed in Hrun. cbn [fst] in Hrun.
  unfold outcome in Hrun. rewrite Hk in Hrun.
  by destruct (may_append h etc_environment).
Qed.

Lemma content_insert (fs : gmap string string) path text :
  content (<[path := text]> fs) path = text.
Proof. unfold content. by rewrite lookup_insert_eq. Qed.

Lemma returned_world h w w' r :
  set_env_vars h w = (r, w') → w' = (set_env_vars h w).2.
Proof. by intros ->. Qed.

(** ** Claims about the persistence phase *)

(** C3: a run on a Linux-classified platform that returns normally opens
    [/etc/environment] once, in append mode, and writes to it one line
    per entry of [env_vars], in order, each exactly [NAME="VALUE"] and a
    line break; the file afterwards is its earlier text followed by
    these lines, so it has one more line per entry, and no other file
    changes. *)
Theorem linux_run_appends_one_line_per_entry h w w' :
  classify (sys_platform h) = Linux →
  set_env_vars h w = (Return (), w') →
  opens (effects h w) = [(etc_environment, "a")] ∧
  writes (effects h w)
  = map (λ kv, (etc_environment,
                kv.1 +:+ "=" +:+ String dquote (kv.2 +:+ String dquote (String newline ""))))
        env_vars ∧
  Forall (λ pd, well_formed_line pd.2 = true ∧ count_char newline pd.2 = 1)
         (writes (effects h w)) ∧
  content (files w') etc_environment
  = content (files w) etc_environment +:+ env_file_block env_vars ∧
  count_char newline (content (files w') etc_environment)
  = count_char newline (content (files w) etc_environment) + length env_vars ∧
  (∀ path, path ≠ etc_environment → files w' !! path = files w !! path).
Proof.
  intros Hk Hrun.
  pose proof (returned_linux_opened _ _ _ Hk Hrun) as Hopen.
  apply returned_world in Hrun. subst w'.
  rewrite effects_closed, persistence_events_linux by done.
  rewrite set_env_vars_closed. cbn [snd files].
  unfold persisted_files. rewrite Hk, Hopen.
  assert (writes (process_events env_vars ++ [Open etc_environment "a"]
                  ++ write_events etc_environment env_vars ++ [Close etc_environment])
          = map (λ kv, (etc_environment, env_file_line kv.1 kv.2)) env_vars) as Hwrites.
  { unfold writes. rewrite !omap_app. fold writes.
    rewrite writes_process_events, writes_write_events. cbn [app omap].
    apply app_nil_r. }
  split_and!.
  - unfold opens. rewrite !omap_app. fold opens.
    by rewrite opens_process_events, opens_write_events.
  - exact Hwrites.
  - rewrite Hwrites. apply Forall_forall. intros pd Hpd.
    revert pd Hpd. apply Forall_forall.
    apply (bool_decide_unpack _). vm_compute. exact I.
  - apply content_insert.
  - rewrite content_insert, count_char_app. f_equal.
  - intros path Hne. by rewrite lookup_insert_ne.
Qed.

(** A Linux run over an environment file that already has a line: the
    line is still there, in front of the eight new ones. *)
Lemma linux_run_appends_one_line_per_entry_witness :
  classify (sys_platform linux_host) = Linux ∧
  content (files (set_env_vars linux_host world_with_lang_line).2) etc_environment
  = ("LANG=C" +:+ String newline "") +:+ env_file_block env_vars.
Proof.
  split; [reflexivity|].
  assert (set_env_vars linux_host world_with_lang_line
          = (Return (), (set_env_vars linux_host world_with_lang_line).2)) as Hrun
    by (vm_compute; reflexivity).
  destruct (linux_run_appends_one_line_per_entry linux_host world_with_lang_line
              _ eq_refl Hrun)
    as (_ & _ & _ & Hcontent & _).
  exact Hcontent.
Defined.

Lemma setx_command_machine_scope key value :
  ∃ args, setx_command key value = "setx " +:+ args +:+ " /M".
Proof.
  exists (key +:+ " " +:+ String dquote (value +:+ String dquote "")).
  unfold setx_command. f_equal.
  rewrite !string_app_assoc. do 2 f_equal.
  by rewrite !string_app_cons, string_app_assoc.
Qed.

(** C4: on a Windows-classified platform the run returns normally after
    handing the shell one [setx] command line per entry of [env_vars],
    in order and no command line twice, each of the form
    [setx NAME "VALUE" /M], so each asks for machine scope; it opens and
    writes no file. *)
Theorem windows_run_invokes_setx_per_entry h w :
  classify (sys_platform h) = Windows →
  (set_env_vars h w).1 = Return () ∧
  shell_runs (effects h w)
  = map (λ kv, "setx " +:+ kv.1 +:+ " " +:+ String dquote (kv.2 +:+ String dquote " /M"))
        env_vars ∧
  length (shell_runs (effects h w)) = length env_vars ∧
  NoDup (shell_runs (effects h w)) ∧
  Forall (λ cmd, ∃ args, cmd = "setx " +:+ args +:+ " /M") (shell_runs (effects h w)) ∧
  opens (effects h w) = [] ∧
  writes (effects h w) = [].
Proof.
  intros Hk.
  assert (persistence_events h = windows_events env_vars) as Hpers
    by (unfold persistence_events; by rewrite Hk).
  assert (shell_runs (effects h w) = map (λ kv, setx_command kv.1 kv.2) env_vars) as Hruns.
  { rewrite effects_closed, Hpers. unfold shell_runs. rewrite omap_app. fold shell_runs.
    by rewrite shell_runs_process_events, shell_runs_windows_events. }
  split_and!.
  - rewrite set_env_vars_closed. cbn [fst]. unfold outcome. by rewrite Hk.
  - exact Hruns.
  - by rewrite Hruns, length_map.
  - rewrite Hruns. apply (bool_decide_unpack _). vm_compute. exact I.
  - rewrite Hruns. apply Forall_forall. intros cmd Hcmd.
    apply list_elem_of_fmap in Hcmd as ([k v] & -> & _).
    apply setx_command_machine_scope.
  - rewrite effects_closed, Hpers. unfold opens. rewrite omap_app. fold opens.
    by rewrite opens_process_events, opens_windows_events.
  - rewrite effects_closed, Hpers. unfold writes. rewrite omap_app. fold writes.
    by rewrite writes_process_events, writes_windows_events.
Qed.

Lemma windows_run_invokes_setx_per_entry_witness :
  classify (sys_platform windows_host) = Windows ∧
  length (shell_runs (effects windows_host empty_world)) = length env_vars.
Proof.
  split; [reflexivity|].
  destruct (windows_run_invokes_setx_per_entry windows_host empty_world eq_refl)
    as (_ & _ & Hlen & _).
  exact Hlen.
Defined.

(** C6: when the platform is Linux-classified and the open of
    [/etc/environment] is refused, the run ends with the error of the
    open, nothing is written (no write happens and every file is as it
    was), and all the assignments of the first phase have been made and
    are still in the environment table. *)
Theorem refused_open_writes_nothing h w :
  classify (sys_platform h) = Linux →
  may_append h etc_environment = false →
  (set_env_vars h w).1 = Raise (OSError etc_environment) ∧
  writes (effects h w) = [] ∧
  files (set_env_vars h w).2 = files w ∧
  env_assigns (effects h w) = env_vars ∧
  (∀ key value, (key, value) ∈ env_vars →
     environ (set_env_vars h w).2 !! key = Some value).
Proof.
  intros Hk Hopen.
  rewrite effects_closed, persistence_events_refused by done.
  rewrite set_env_vars_closed. cbn [fst snd files environ].
  unfold outcome, persisted_files. rewrite Hk, Hopen. split_and!.
  - done.
  - unfold writes. rewrite omap_app. fold writes.
    by rewrite writes_process_events.
  - done.
  - rewrite env_assigns_app, env_assigns_process_events. apply app_nil_r.
  - intros key value Hin.
    apply assign_all_lookup; [apply env_vars_keys_NoDup | done].
Qed.

(** A read-only Linux machine whose environment file has one line. *)
Lemma refused_open_writes_nothing_witness :
  classify (sys_platform readonly_linux_host) = Linux ∧
  may_append readonly_linux_host etc_environment = false ∧
  files (set_env_vars readonly_linux_host world_with_lang_line).2
  = files world_with_lang_line.
Proof.
  split; [reflexivity|]. split; [reflexivity|].
  destruct (refused_open_writes_nothing readonly_linux_host world_with_lang_line
              eq_refl eq_refl)
    as (_ & _ & Hfiles & _).
  exact Hfiles.
Defined.

(** C7: on a platform that is neither [win32] nor a [linux...] one the
    run returns normally, its effects are the assignments and progress
    lines of the first loop and nothing else (no shell command, no open,
    write or close), every file is as it was, and every entry of
    [env_vars] is in the environment table. *)
Theorem other_platform_persists_nothing h w :
  classify (sys_platform h) = Other →
  (set_env_vars h w).1 = Return () ∧
  effects h w
  = flat_map (λ kv, [EnvAssign kv.1 kv.2;
                     Print ("Set " +:+ kv.1 +:+ " for current process.")]) env_vars ∧
  omap branch_of (effects h w) = [] ∧
  files (set_env_vars h w).2 = files w ∧
  (∀ key value, (key, value) ∈ env_vars →
     environ (set_env_vars h w).2 !! key = Some value).
Proof.
  intros Hk.
  assert (persistence_events h = []) as Hpers
    by (unfold persistence_events; by rewrite Hk).
  rewrite effects_closed, Hpers, app_nil_r.
  rewrite set_env_vars_closed. cbn [fst snd files environ].
  unfold outcome, persisted_files. rewrite Hk. split_and!.
  - reflexivity.
  - reflexivity.
  - apply branch_of_process_events.
  - reflexivity.
  - intros key value Hin.
    apply assign_all_lookup; [apply env_vars_keys_NoDup | done].
Qed.

Lemma other_platform_persists_nothing_witness :
  classify (sys_platform darwin_host) = Other ∧
  omap branch_of (effects darwin_host empty_world) = [] ∧
  files (set_env_vars darwin_host empty_world).2 = ∅.
Proof.
  split; [reflexivity|].
  destruct (other_platform_persists_nothing darwin_host empty_world eq_refl)
    as (_ & _ & Hnone & Hfiles & _).
  split; [exact Hnone | exact Hfiles].
Defined.

Lemma writes_effects_linux h w :
  classify (sys_platform h) = Linux →
  may_append h etc_environment = true →
  writes (effects h w)
  = map (λ kv, (etc_environment, env_file_line kv.1 kv.2)) env_vars.
Proof.
  intros Hk Hopen. rewrite effects_closed, persistence_events_linux by done.
  unfold writes. rewrite !omap_app. fold writes.
  rewrite writes_process_events, writes_write_events. cbn [app omap].
  apply app_nil_r.
Qed.

(** ** Running twice *)

Lemma string_app_eq_self s t : s +:+ t = s → t = "".
Proof.
  intros H. apply (inj (String.app s)). by rewrite string_app_nil_r.
Qed.

(** C5: when the procedure runs twice in succession and both runs return
    normally, the environment table after the second run is the table
    after the first, with every entry of [env_vars] in it.  On a
    Linux-classified platform the file is not the same after the second
    run: the two runs wrote the lines [NAME="VALUE"] of the entries, each
    followed by a line break, once and then once more, so each entry's
    line was written exactly twice; the file ends with two copies of
    these lines behind its original text and has two more lines per
    entry than before. *)
Theorem second_run_same_environ_duplicate_lines h w w1 w2 :
  set_env_vars h w = (Return (), w1) →
  set_env_vars h w1 = (Return (), w2) →
  environ w2 = environ w1 ∧
  (∀ key value, (key, value) ∈ env_vars → environ w2 !! key = Some value) ∧
  (classify (sys_platform h) = Linux →
     writes (effects h w ++ effects h w1)
     = map (λ kv, (etc_environment,
                   kv.1 +:+ "=" +:+ String dquote (kv.2 +:+ String dquote (String newline ""))))
           (env_vars ++ env_vars) ∧
     Forall (λ kv,
               length (filter
                         (λ pd, pd = (etc_environment,
                                      kv.1 +:+ "=" +:+ String dquote
                                        (kv.2 +:+ String dquote (String newline ""))))
                         (writes (effects h w ++ effects h w1))) = 2)
            env_vars ∧
     Forall (λ pd, well_formed_line pd.2 = true ∧ count_char newline pd.2 = 1)
            (writes (effects h w ++ effects h w1)) ∧
     content (files w2) etc_environment
     = content (files w) etc_environment
       +:+ foldr (λ kv rest,
                    (kv.1 +:+ "=" +:+ String dquote
                       (kv.2 +:+ String dquote (String newline ""))) +:+ rest)
                 "" (env_vars ++ env_vars) ∧
     count_char newline (content (files w2) etc_environment)
     = count_char newline (content (files w) etc_environment) + 2 * length env_vars ∧
     files w2 ≠ files w1).
Proof.
  intros Hrun1 Hrun2. split_and!.
  - apply returned_world in Hrun1, Hrun2. subst w2 w1.
    rewrite !set_env_vars_closed. cbn [snd environ]. apply assign_all_idemp.
  - intros key value Hin. apply returned_world in Hrun2. subst w2.
    rewrite set_env_vars_closed. cbn [snd environ].
    apply assign_all_lookup; [apply env_vars_keys_NoDup | done].
  - intros Hk.
    pose proof (returned_linux_opened _ _ _ Hk Hrun1) as Hopen.
    apply returned_world in Hrun1, Hrun2. subst w2 w1.
    assert (∀ w1 w2, writes (effects h w1 ++ effects h w2)
            = map (λ kv, (etc_environment, env_file_line kv.1 kv.2)) (env_vars ++ env_vars))
      as Hwrites.
    { intros w1 w2. unfold writes. rewrite omap_app. fold writes.
      by rewrite !writes_effects_linux, map_app. }
    rewrite !Hwrites.
    rewrite !set_env_vars_closed. cbn [snd files].
    unfold persisted_files. rewrite Hk, Hopen.
    assert (foldr (λ kv rest,
                     (kv.1 +:+ "=" +:+ String dquote
                        (kv.2 +:+ String dquote (String newline ""))) +:+ rest)
                  "" (env_vars ++ env_vars)
            = env_file_block env_vars +:+ env_file_block env_vars) as Hblock
      by (vm_compute; reflexivity).
    rewrite Hblock. split_and!.
    + reflexivity.
    + apply (bool_decide_unpack _). vm_compute. exact I.
    + apply (bool_decide_unpack _). vm_compute. exact I.
    + by rewrite !content_insert, string_app_assoc.
    + rewrite !content_insert, !count_char_app.
      assert (count_char newline (env_file_block env_vars) = length env_vars) as ->
        by reflexivity.
      lia.
    + intros Heq. apply (f_equal (λ fs, content fs etc_environment)) in Heq.
      rewrite !content_insert in Heq.
      apply string_app_eq_self in Heq. discriminate Heq.
Qed.

(** Two runs on a Linux machine from the empty world: the first and the
    ninth write are the line of the first entry, and the file has
    sixteen lines. *)
Lemma second_run_same_environ_duplicate_lines_witness :
  environ (set_env_vars linux_host (set_env_vars linux_host empty_world).2).2
  = environ (set_env_vars linux_host empty_world).2 ∧
  writes (effects linux_host empty_world
          ++ effects linux_host (set_env_vars linux_host empty_world).2) !! 0
  = Some (etc_environment,
          "SIMPLE_IDENTITY_SERVER_DB_PASSWORD=" +:+ String dquote
            ("sample@Strong23Password" +:+ String dquote (String newline ""))) ∧
  writes (effects linux_host empty_world
          ++ effects linux_host (set_env_vars linux_host empty_world).2) !! 8
  = Some (etc_environment,
          "SIMPLE_IDENTITY_SERVER_DB_PASSWORD=" +:+ String dquote
            ("sample@Strong23Password" +:+ String dquote (String newline ""))) ∧
  count_char newline
    (content (files (set_env_vars linux_host (set_env_vars linux_host empty_world).2).2)
             etc_environment)
  = 16.
Proof.
  set (w1 := (set_env_vars linux_host empty_world).2).
  set (w2 := (set_env_vars linux_host w1).2).
  assert (set_env_vars linux_host empty_world = (Return (), w1)) as Hrun1
    by (vm_compute; reflexivity).
  assert (set_env_vars linux_host w1 = (Return (), w2)) as Hrun2
    by (vm_compute; reflexivity).
  destruct (second_run_same_environ_duplicate_lines linux_host empty_world w1 w2 Hrun1 Hrun2)
    as (Henv & _ & Hlinux).
  destruct (Hlinux eq_refl) as (Hwrites & _ & _ & _ & Hcount & _).
  split; [exact Henv|]. rewrite Hwrites, Hcount.
  split; [reflexivity|]. split; reflexivity.
Defined.

(** ** Values with a double quote *)

Lemma value_then_eol_quotes s :
  value_then_eol s = true → count_char dquote s = 1.
Proof.
  induction s as [|c s IH]; [done|]. cbn [value_then_eol count_char].
  destruct (Ascii.eqb_spec c dquote) as [->|Hc].
  - intros ->%String.eqb_eq. reflexivity.
  - destruct (Ascii.eqb c newline); [done|]. intros H. by rewrite IH.
Qed.

Lemma name_then_value_quotes s :
  name_then_value s = true → count_char dquote s = 2.
Proof.
  induction s as [|c s IH]; [done|]. cbn [name_then_value count_char].
  destruct (Ascii.eqb_spec c "=") as [->|Hc].
  - destruct s as [|q body]; [done|].
    intros [Hq Hbody]%andb_true_iff. cbn [count_char].
    rewrite Hq, (value_then_eol_quotes _ Hbody). reflexivity.
  - destruct (Ascii.eqb_spec c dquote) as [->|Hq]; [done|].
    destruct (Ascii.eqb c newline); [done|]. cbn [orb]. intros H. by rewrite IH.
Qed.

Lemma well_formed_line_quotes s :
  well_formed_line s = true → count_char dquote s = 2.
Proof.
  destruct s as [|c s]; [done|]. unfold well_formed_line.
  intros [_ H]%andb_true_iff. by apply name_then_value_quotes.
Qed.

Lemma env_file_line_quotes key value :
  count_char dquote (env_file_line key value)
  = count_char dquote key + 2 + count_char dquote value.
Proof.
  unfold env_file_line. rewrite !count_char_app. cbn [count_char].
  rewrite count_char_app. cbn. lia.
Qed.

(** C8: the line written for an entry is the name, [=], a double quote,
    the value character for character, a double quote and a line break;
    this is what a Linux run writes for every entry of [env_vars]; and
    for a value that has a double quote in it the line is not of the
    shape [NAME="VALUE"], whatever the name. *)
Theorem env_file_line_keeps_value_verbatim :
  (∀ key value,
     env_file_line key value
     = key +:+ "=" +:+ String dquote "" +:+ value +:+ String dquote "" +:+ String newline "") ∧
  (∀ h w,
     classify (sys_platform h) = Linux → may_append h etc_environment = true →
     writes (effects h w)
     = map (λ kv, (etc_environment, env_file_line kv.1 kv.2)) env_vars) ∧
  (∀ key value,
     0 < count_char dquote value →
     well_formed_line (env_file_line key value) = false).
Proof.
  split_and!.
  - reflexivity.
  - apply writes_effects_linux.
  - intros key value Hq.
    destruct (well_formed_line (env_file_line key value)) eqn:Hwf; [|done].
    apply well_formed_line_quotes in Hwf.
    rewrite env_file_line_quotes in Hwf. lia.
Qed.

(** A password with a double quote in the middle. *)
Lemma env_file_line_keeps_value_verbatim_witness :
  0 < count_char dquote ("pa" +:+ String dquote "ss") ∧
  well_formed_line (env_file_line "DB_PASSWORD" ("pa" +:+ String dquote "ss")) = false ∧
  well_formed_line (env_file_line "DB_PASSWORD" "pass") = true.
Proof.
  set (value := "pa" +:+ String dquote "ss").
  destruct env_file_line_keeps_value_verbatim as (_ & _ & Hbad).
  assert (0 < count_char dquote value) as Hq by (vm_compute; lia).
  split; [exact Hq|]. split; [exact (Hbad "DB_PASSWORD" value Hq) | reflexivity].
Defined.

(** ** Order of the phases *)

Lemma env_assigns_none_lookup evs i e :
  env_assigns evs = [] → evs !! i = Some e → is_env_assign e = false.
Proof.
  revert i. induction evs as [|a evs IH]; intros i Hnone Hi; [done|].
  destruct i as [|i]; cbn in Hi.
  - injection Hi as ->. by destruct e.
  - apply (IH i); [|done]. by destruct a.
Qed.

Lemma branch_of_none_lookup evs i e :
  omap branch_of evs = [] → evs !! i = Some e → is_persistence e = false.
Proof.
  revert i. induction evs as [|a evs IH]; intros i Hnone Hi; [done|].
  destruct i as [|i]; cbn in Hi.
  - injection Hi as ->. by destruct e.
  - apply (IH i); [|done]. by destruct a.
Qed.

Lemma persistence_events_disjoint h :
  Forall (λ e, e ∉ persistence_events h) (process_events env_vars).
Proof.
  unfold persistence_events.
  destruct (classify _); [| destruct (may_append _ _) |];
    apply (bool_decide_unpack _); vm_compute; exact I.
Qed.

Lemma persistence_events_branches h :
  branches (persistence_events h)
  = match classify (sys_platform h) with Other => [] | kind => [kind] end.
Proof.
  unfold persistence_events.
  destruct (classify _); [| destruct (may_append _ _) |]; vm_compute; reflexivity.
Qed.

(** C9: the effects of a run are those of the process-scope loop
    followed by those of the persistence phase.  The first part holds
    the assignment of every entry and no persistence action; the second
    part holds no assignment and nothing that occurs in the first, and
    its actions belong to exactly one platform branch, the one
    [sys.platform] selects (none at all on another platform).  Hence in
    the sequence of effects every assignment to the environment table
    comes before every persistence action. *)
Theorem phases_run_in_sequence h w :
  (∃ process persistence,
     effects h w = process ++ persistence ∧
     env_assigns process = env_vars ∧
     omap branch_of process = [] ∧
     env_assigns persistence = [] ∧
     Forall (λ e, e ∉ persistence) process ∧
     branches persistence
     = match classify (sys_platform h) with Other => [] | kind => [kind] end) ∧
  (∀ i j a p,
     effects h w !! i = Some a → is_env_assign a = true →
     effects h w !! j = Some p → is_persistence p = true →
     i < j).
Proof.
  rewrite effects_closed. split.
  - exists (process_events env_vars), (persistence_events h). split_and!.
    + reflexivity.
    + apply env_assigns_process_events.
    + apply branch_of_process_events.
    + apply env_assigns_persistence_events.
    + apply persistence_events_disjoint.
    + apply persistence_events_branches.
  - intros i j a p Hi Ha Hj Hp.
    apply lookup_app_Some in Hi as [Hi|[_ Hi]]; cycle 1.
    { apply env_assigns_none_lookup in Hi; [congruence|].
      apply env_assigns_persistence_events. }
    apply lookup_app_Some in Hj as [Hj|[Hj _]].
    { apply branch_of_none_lookup in Hj; [congruence|].
      apply branch_of_process_events. }
    apply lookup_lt_Some in Hi. lia.
Qed.

(** On a Linux machine the first assignment is effect 0 and the open of
    the environment file is effect 16. *)
Lemma phases_run_in_sequence_witness :
  effects linux_host empty_world !! 0
  = Some (EnvAssign "SIMPLE_IDENTITY_SERVER_DB_PASSWORD" "sample@Strong23Password") ∧
  effects linux_host empty_world !! 16 = Some (Open etc_environment "a") ∧
  0 < 16.
Proof.
  assert (effects linux_host empty_world !! 0
          = Some (EnvAssign "SIMPLE_IDENTITY_SERVER_DB_PASSWORD" "sample@Strong23Password"))
    as H0 by (vm_compute; reflexivity).
  assert (effects linux_host empty_world !! 16 = Some (Open etc_environment "a"))
    as H16 by (vm_compute; reflexivity).
  split; [exact H0|]. split; [exact H16|].
  destruct (phases_run_in_sequence linux_host empty_world) as [_ Horder].
  exact (Horder 0 16 _ _ H0 eq_refl H16 eq_refl).
Defined.

(** ** Determinism *)

(** C10: what a run does is fixed by the platform classification and by
    whether the environment file may be opened: two runs that agree on
    these end the same way and have the same sequence of effects, and so
    the same progress output, whatever the worlds they start in; both
    phases go through the entries in the order of [env_vars]; and from
    equal environment tables, or equal files, they leave equal ones. *)
Theorem run_determined_by_platform h1 h2 w1 w2 :
  classify (sys_platform h1) = classify (sys_platform h2) →
  may_append h1 etc_environment = may_append h2 etc_environment →
  (set_env_vars h1 w1).1 = (set_env_vars h2 w2).1 ∧
  effects h1 w1 = effects h2 w2 ∧
  printed (effects h1 w1) = printed (effects h2 w2) ∧
  env_assigns (effects h1 w1) = env_vars ∧
  match classify (sys_platform h1) with
  | Windows =>
      shell_runs (effects h1 w1) = map (λ kv, setx_command kv.1 kv.2) env_vars
  | Linux =>
      writes (effects h1 w1)
      = if may_append h1 etc_environment
        then map (λ kv, (etc_environment, env_file_line kv.1 kv.2)) env_vars
        else []
  | Other => omap branch_of (effects h1 w1) = []
  end ∧
  (environ w1 = environ w2 →
     environ (set_env_vars h1 w1).2 = environ (set_env_vars h2 w2).2) ∧
  (files w1 = files w2 →
     files (set_env_vars h1 w1).2 = files (set_env_vars h2 w2).2).
Proof.
  intros Hk Hopen.
  assert (persistence_events h1 = persistence_events h2) as Hpers
    by (unfold persistence_events; by rewrite Hk, Hopen).
  assert (effects h1 w1 = effects h2 w2) as Heff
    by (by rewrite !effects_closed, Hpers).
  split_and!.
  - rewrite !set_env_vars_closed. cbn [fst]. unfold outcome. by rewrite Hk, Hopen.
  - exact Heff.
  - by rewrite Heff.
  - rewrite effects_closed, env_assigns_app, env_assigns_process_events.
    by rewrite env_assigns_persistence_events, app_nil_r.
  - rewrite effects_closed. unfold persistence_events.
    destruct (classify (sys_platform h1)).
    + unfold shell_runs. rewrite omap_app. fold shell_runs.
      by rewrite shell_runs_process_events, shell_runs_windows_events.
    + unfold writes. rewrite omap_app. fold writes.
      rewrite writes_process_events.
      destruct (may_append h1 etc_environment); [|done].
      rewrite !omap_app. fold writes. rewrite writes_write_events.
      cbn [app omap]. apply app_nil_r.
    + by rewrite app_nil_r, branch_of_process_events.
  - intros Henv. rewrite !set_env_vars_closed. cbn [snd environ]. by rewrite Henv.
  - intros Hfiles. rewrite !set_env_vars_closed. cbn [snd files].
    unfold persisted_files. by rewrite Hk, Hopen, Hfiles.
Qed.

(** Two Linux machines that report different [sys.platform] strings,
    started in different worlds. *)
Lemma run_determined_by_platform_witness :
  sys_platform linux_host ≠ sys_platform linux2_host ∧
  effects linux_host empty_world = effects linux2_host busy_world.
Proof.
  split; [discriminate|].
  destruct (run_determined_by_platform linux_host linux2_host empty_world busy_world
              eq_refl eq_refl)
    as (_ & Heff & _).
  exact Heff.
Defined.

(** * Further properties of the script *)

(** ** What a run leaves alone *)

(** X1: where names are case-sensitive, that is on every platform but
    [win32], a run changes no variable other than the names of
    [env_vars]: however the run ends, a name that is not a key of the
    dictionary has the binding it had before, or still none. *)
Theorem run_keeps_other_variables h w name :
  sys_platform h ≠ "win32" →
  name ∉ env_vars.*1 →
  environ (set_env_vars h w).2 !! name = environ w !! name.
Proof.
  intros _ Hname. rewrite set_env_vars_closed. cbn [snd environ].
  by apply assign_all_lookup_other.
Qed.

(** A name that differs from a configured one in letter case only, on a
    Linux machine whose open is refused. *)
Lemma run_keeps_other_variables_witness :
  environ (set_env_vars readonly_linux_host busy_world).2 !! "HOME" = Some "/root" ∧
  environ (set_env_vars readonly_linux_host busy_world).2 !! "aspnetcore_urls" = None.
Proof.
  split.
  - rewrite (run_keeps_other_variables readonly_linux_host busy_world "HOME").
    + reflexivity.
    + discriminate.
    + apply (bool_decide_unpack _). vm_compute. exact I.
  - rewrite (run_keeps_other_variables readonly_linux_host busy_world "aspnetcore_urls").
    + reflexivity.
    + discriminate.
    + apply (bool_decide_unpack _). vm_compute. exact I.
Defined.

(** X2: the only file a run can change is [/etc/environment]: every
    other path has the content it had, or is still missing; and on a
    platform that is not Linux-classified no file changes at all. *)
Theorem run_keeps_other_files h w :
  (∀ path, path ≠ etc_environment →
     files (set_env_vars h w).2 !! path = files w !! path) ∧
  (classify (sys_platform h) ≠ Linux → files (set_env_vars h w).2 = files w).
Proof.
  rewrite set_env_vars_closed. cbn [snd files]. unfold persisted_files. split.
  - intros path Hne.
    destruct (classify _); [done| |done].
    destruct (may_append _ _); [|done]. by rewrite lookup_insert_ne.
  - intros Hk. by destruct (classify _).
Qed.

Lemma run_keeps_other_files_witness :
  files (set_env_vars linux_host world_with_lang_line).2 !! "/etc/hosts" = None ∧
  files (set_env_vars windows_host world_with_lang_line).2 = files world_with_lang_line.
Proof.
  destruct (run_keeps_other_files linux_host world_with_lang_line) as [Hother _].
  destruct (run_keeps_other_files windows_host world_with_lang_line) as [_ Hall].
  split.
  - rewrite (Hother "/etc/hosts"); [reflexivity | discriminate].
  - apply Hall. discriminate.
Defined.

(** X3: append mode creates the file: on a Linux-classified platform
    that permits the open, a run started without [/etc/environment]
    leaves the file in existence, holding exactly the lines of the
    entries. *)
Theorem linux_run_creates_missing_file h w :
  classify (sys_platform h) = Linux →
  may_append h etc_environment = true →
  files w !! etc_environment = None →
  files (set_env_vars h w).2 !! etc_environment = Some (env_file_block env_vars).
Proof.
  intros Hk Hopen Hmissing. rewrite set_env_vars_closed. cbn [snd files].
  unfold persisted_files. rewrite Hk, Hopen, lookup_insert_eq.
  unfold content. by rewrite Hmissing.
Qed.

Lemma linux_run_creates_missing_file_witness :
  files empty_world !! etc_environment = None ∧
  files (set_env_vars linux_host empty_world).2 !! etc_environment
  = Some (env_file_block env_vars).
Proof.
  split; [reflexivity|].
  apply (linux_run_creates_missing_file linux_host empty_world); reflexivity.
Defined.

(** ** Which platforms take which branch *)

Lemma prefix_app_iff p s :
  String.prefix p s = true ↔ ∃ rest, s = p +:+ rest.
Proof.
  revert s. induction p as [|a p IH]; intros s.
  - split; [intros _; by exists s | by destruct s].
  - destruct s as [|b s]; cbn [String.prefix].
    + split; [done | by intros [rest Hrest]].
    + destruct (ascii_dec a b) as [->|Hab].
      * rewrite IH. split; intros [rest Hrest]; exists rest.
        -- by rewrite string_app_cons, Hrest.
        -- rewrite string_app_cons in Hrest. by injection Hrest.
      * split; [done|]. intros [rest Hrest].
        rewrite string_app_cons in Hrest. by injection Hrest as -> _.
Qed.

(** The two tests of the source in terms of the string: no string passes
    both, so their order does not matter. *)
Lemma classify_spec platform :
  (classify platform = Windows ↔ platform = "win32") ∧
  (classify platform = Linux ↔ ∃ rest, platform = "linux" +:+ rest) ∧
  (classify platform = Other ↔
     platform ≠ "win32" ∧ ¬ ∃ rest, platform = "linux" +:+ rest) ∧
  ¬ (String.eqb platform "win32" = true ∧ startswith platform "linux" = true).
Proof.
  unfold classify, startswith.
  pose proof (prefix_app_iff "linux" platform) as Hprefix.
  destruct (String.eqb_spec platform "win32") as [->|Hne].
  - split_and!.
    + done.
    + split; [done|]. intros [rest Hrest]. discriminate Hrest.
    + split; [done|]. by intros [? _].
    + intros [_ H]. discriminate H.
  - destruct (String.prefix "linux" platform).
    + split_and!.
      * done.
      * split; [intros _; by apply Hprefix | done].
      * split; [done|]. intros [_ Hno]. destruct Hno. by apply Hprefix.
      * by intros [? _].
    + split_and!.
      * done.
      * split; [done|]. intros Hex. apply Hprefix in Hex. done.
      * split; [|done]. intros _. split; [done|].
        intros Hex. apply Hprefix in Hex. done.
      * by intros [? _].
Qed.

(** X4: which persistence a run performs, read off the string the host
    reports: a run hands command lines to the shell exactly when
    [sys.platform] is [win32]; it calls [open] on [/etc/environment]
    exactly when [sys.platform] begins with [linux], whatever follows;
    and for every other string, such as one that differs from these in
    letter case only, it performs no persistence action. *)
Theorem persistence_branch_by_platform h w :
  (shell_runs (effects h w) ≠ [] ↔ sys_platform h = "win32") ∧
  (opens (effects h w) ≠ [] ↔ ∃ rest, sys_platform h = "linux" +:+ rest) ∧
  (omap branch_of (effects h w) = [] ↔
     sys_platform h ≠ "win32" ∧ ¬ ∃ rest, sys_platform h = "linux" +:+ rest).
Proof.
  destruct (classify_spec (sys_platform h)) as (Hwin & Hlin & Hoth & _).
  rewrite <- Hoth, <- Hwin, <- Hlin.
  rewrite effects_closed. unfold persistence_events.
  destruct (classify (sys_platform h)); [| destruct (may_append _ _) |];
    split_and!; split; intros H; try done; by vm_compute in H.
Qed.

(** ** The progress lines *)

Lemma lines_follow_actions_lookup prev evs i line :
  lines_follow_actions prev evs = true →
  evs !! i = Some (Print line) →
  match i with
  | 0 => ∃ a, prev = Some a ∧ reports a line = true
  | S j => ∃ a, evs !! j = Some a ∧ reports a line = true
  end.
Proof.
  revert prev i. induction evs as [|e evs IH]; intros prev i Hok Hi; [done|].
  cbn [lines_follow_actions] in Hok. apply andb_true_iff in Hok as [Hhead Hrest].
  destruct i as [|i]; cbn in Hi.
  - injection Hi as ->. destruct prev as [a|]; [|done]. by exists a.
  - specialize (IH (Some e) i Hrest Hi). destruct i as [|j].
    + destruct IH as (a & [= <-] & Ha). by exists e.
    + exact IH.
Qed.

Lemma effects_lines_follow_actions h w :
  lines_follow_actions None (effects h w) = true.
Proof.
  rewrite effects_closed. unfold persistence_events.
  destruct (classify _); [| destruct (may_append _ _) |]; vm_compute; reflexivity.
Qed.

(** X5: the progress output is truthful: a run never starts with a
    progress line, and every line it prints comes directly after the
    action that the line reports, on the entry it names: the assignment
    for [Set NAME for current process.], the [setx] command for
    [Set NAME system-wide (Windows).], the write of the entry's line for
    [Appended NAME to /etc/environment (Linux).]. *)
Theorem progress_line_follows_its_action h w i line :
  effects h w !! i = Some (Print line) →
  ∃ j key value,
    i = S j ∧ (key, value) ∈ env_vars ∧
    (effects h w !! j = Some (EnvAssign key value) ∧ line = msg_process key
     ∨ effects h w !! j = Some (ShellRun (setx_command key value))
       ∧ line = msg_windows key
     ∨ effects h w !! j = Some (Write etc_environment (env_file_line key value))
       ∧ line = msg_linux key).
Proof.
  intros Hi.
  pose proof (lines_follow_actions_lookup None _ i line
                (effects_lines_follow_actions h w) Hi) as Hprev.
  destruct i as [|j].
  { by destruct Hprev as (a & ? & _). }
  destruct Hprev as (a & Hj & Ha). exists j.
  unfold reports in Ha. apply existsb_exists in Ha as ([key value] & Hin & Hcase).
  exists key, value. split; [done|]. split; [by apply list_elem_of_In|].
  cbn [fst snd] in Hcase.
  apply orb_true_iff in Hcase as [Hcase|Hcase];
    [apply orb_true_iff in Hcase as [Hcase|Hcase]|];
    apply bool_decide_eq_true in Hcase as [-> ->]; auto.
Qed.

Lemma progress_line_follows_its_action_witness :
  ∃ j key value,
    17 = S j ∧ (key, value) ∈ env_vars ∧
    (effects windows_host empty_world !! j = Some (EnvAssign key value)
       ∧ msg_windows "SIMPLE_IDENTITY_SERVER_DB_PASSWORD" = msg_process key
     ∨ effects windows_host empty_world !! j = Some (ShellRun (setx_command key value))
       ∧ msg_windows "SIMPLE_IDENTITY_SERVER_DB_PASSWORD" = msg_windows key
     ∨ effects windows_host empty_world !! j
       = Some (Write etc_environment (env_file_line key value))
       ∧ msg_windows "SIMPLE_IDENTITY_SERVER_DB_PASSWORD" = msg_linux key).
Proof.
  apply (progress_line_follows_its_action windows_host empty_world 17).
  vm_compute. reflexivity.
Defined.

(** ** The file handle *)

(** X6: on a Linux-classified platform that permits the open, the
    actions of a run on files are, in this order: the open of
    [/etc/environment], the write of each entry's line, and the close;
    the close is the last effect of the run, so the with block leaves no
    handle open and nothing is written or printed after it. *)
Theorem linux_run_closes_the_file h w :
  classify (sys_platform h) = Linux →
  may_append h etc_environment = true →
  file_actions (effects h w)
  = Open etc_environment "a"
    :: map (λ kv, Write etc_environment (env_file_line kv.1 kv.2)) env_vars
    ++ [Close etc_environment] ∧
  last (effects h w) = Some (Close etc_environment).
Proof.
  intros Hk Hopen. rewrite effects_closed, persistence_events_linux by done.
  split; vm_compute; reflexivity.
Qed.

Lemma linux_run_closes_the_file_witness :
  last (effects linux_host world_with_lang_line) = Some (Close etc_environment).
Proof.
  destruct (linux_run_closes_the_file linux_host world_with_lang_line eq_refl eq_refl)
    as [_ Hlast].
  exact Hlast.
Defined.

(** X7: a refused open leaves no handle behind either: the run on a
    Linux-classified platform that refuses the open has the open as its
    only action on files and as its last effect; in particular no
    progress line of the persistence phase is printed. *)
Theorem refused_open_is_the_last_effect h w :
  classify (sys_platform h) = Linux →
  may_append h etc_environment = false →
  file_actions (effects h w) = [Open etc_environment "a"] ∧
  last (effects h w) = Some (Open etc_environment "a") ∧
  printed (effects h w) = map (λ kv, msg_process kv.1) env_vars.
Proof.
  intros Hk Hopen. rewrite effects_closed, persistence_events_refused by done.
  split_and!; vm_compute; reflexivity.
Qed.

Lemma refused_open_is_the_last_effect_witness :
  last (effects readonly_linux_host empty_world) = Some (Open etc_environment "a").
Proof.
  destruct (refused_open_is_the_last_effect readonly_linux_host empty_world
              eq_refl eq_refl) as (_ & Hlast & _).
  exact Hlast.
Defined.

(** ** Runs in succession *)

Lemma count_char_repeat_string c n s :
  count_char c (repeat_string n s) = n * count_char c s.
Proof.
  induction n as [|n IH]; [done|].
  cbn [repeat_string]. rewrite count_char_app, IH. lia.
Qed.

Lemma set_env_vars_linux_returns h w :
  classify (sys_platform h) = Linux →
  may_append h etc_environment = true →
  set_env_vars h w =
    (Return (),
     World (assign_all env_vars (environ w))
           (<[etc_environment := content (files w) etc_environment
                                 +:+ env_file_block env_vars]> (files w))
           (trace w ++ effects h w)).
Proof.
  intros Hk Hopen. rewrite effects_closed, set_env_vars_closed.
  unfold outcome, persisted_files. by rewrite Hk, Hopen.
Qed.

(** X8: on a Linux-classified platform that permits the open, [n] runs
    in a row all return normally and leave [/etc/environment] holding
    its earlier text followed by [n] copies of the block of lines, eight
    more lines per run; from the first run on, the environment table no
    longer changes. *)
Theorem repeated_runs_append_repeated_blocks h n w :
  classify (sys_platform h) = Linux →
  may_append h etc_environment = true →
  (run_times n h w).1 = Return () ∧
  content (files (run_times (S n) h w).2) etc_environment
  = content (files w) etc_environment +:+ repeat_string (S n) (env_file_block env_vars) ∧
  count_char newline (content (files (run_times (S n) h w).2) etc_environment)
  = count_char newline (content (files w) etc_environment) + S n * length env_vars ∧
  environ (run_times (S n) h w).2 = environ (set_env_vars h w).2.
Proof.
  intros Hk Hopen.
  assert (∀ m w0, (run_times m h w0).1 = Return ()) as Hret.
  { induction m as [|m IH]; intros w0; [done|].
    cbn [run_times]. rewrite py_bind_unfold, set_env_vars_linux_returns by done.
    apply IH. }
  assert (∀ m w0,
            content (files (run_times (S m) h w0).2) etc_environment
            = content (files w0) etc_environment
              +:+ repeat_string (S m) (env_file_block env_vars)
            ∧ environ (run_times (S m) h w0).2 = assign_all env_vars (environ w0))
    as Hstate.
  { induction m as [|m IH]; intros w0.
    - cbn [run_times]. rewrite py_bind_unfold, set_env_vars_linux_returns by done.
      cbn [mret py_ret snd files environ repeat_string].
      by rewrite content_insert, string_app_nil_r.
    - change (run_times (S (S m)) h w0)
        with ((set_env_vars h ≫= λ _, run_times (S m) h) w0).
      rewrite py_bind_unfold, set_env_vars_linux_returns by done.
      destruct (IH (World (assign_all env_vars (environ w0))
                          (<[etc_environment := content (files w0) etc_environment
                                                +:+ env_file_block env_vars]> (files w0))
                          (trace w0 ++ effects h w0))) as [Hc He].
      rewrite Hc, He. cbn [files environ].
      rewrite content_insert, assign_all_idemp.
      split; [|done]. by rewrite string_app_assoc. }
  destruct (Hstate n w) as [Hc He]. split_and!.
  - apply Hret.
  - exact Hc.
  - rewrite Hc, count_char_app, count_char_repeat_string. reflexivity.
  - rewrite He, set_env_vars_closed. reflexivity.
Qed.

Lemma repeated_runs_append_repeated_blocks_witness :
  content (files (run_times 3 linux_host world_with_lang_line).2) etc_environment
  = content (files world_with_lang_line) etc_environment
    +:+ repeat_string 3 (env_file_block env_vars).
Proof.
  destruct (repeated_runs_append_repeated_blocks linux_host 2 world_with_lang_line
              eq_refl eq_refl) as (_ & Hcontent & _).
  exact Hcontent.
Defined.

(** X9: a run that fails on the refused open has nothing to undo: when
    the script is started again on the same world's outcome, now with
    the open permitted, the environment table and the files end up as
    after one permitted run from the original world; the failed attempt
    left no partial line behind. *)
Theorem rerun_after_refused_open refusing permitting w :
  classify (sys_platform refusing) = Linux →
  may_append refusing etc_environment = false →
  classify (sys_platform permitting) = Linux →
  may_append permitting etc_environment = true →
  (set_env_vars permitting (set_env_vars refusing w).2).1 = Return () ∧
  environ (set_env_vars permitting (set_env_vars refusing w).2).2
  = environ (set_env_vars permitting w).2 ∧
  files (set_env_vars permitting (set_env_vars refusing w).2).2
  = files (set_env_vars permitting w).2.
Proof.
  intros Hk1 Hno Hk2 Hyes. rewrite !set_env_vars_closed.
  cbn [fst snd environ files]. unfold outcome, persisted_files.
  rewrite Hk1, Hno, Hk2, Hyes. split_and!.
  - done.
  - apply assign_all_idemp.
  - done.
Qed.

Lemma rerun_after_refused_open_witness :
  files (set_env_vars linux_host (set_env_vars readonly_linux_host world_with_lang_line).2).2
  = files (set_env_vars linux_host world_with_lang_line).2.
Proof.
  destruct (rerun_after_refused_open readonly_linux_host linux_host world_with_lang_line
              eq_refl eq_refl eq_refl eq_refl) as (_ & _ & Hfiles).
  exact Hfiles.
Defined.

(** ** When a written line has the shape of the pattern *)

Lemma value_then_eol_newlines s :
  value_then_eol s = true → count_char newline s = 1.
Proof.
  induction s as [|c s IH]; [done|]. cbn [value_then_eol count_char].
  destruct (Ascii.eqb_spec c dquote) as [->|Hc].
  - intros ->%String.eqb_eq. reflexivity.
  - destruct (Ascii.eqb c newline); [done|]. intros H. by rewrite IH.
Qed.

Lemma name_then_value_newlines s :
  name_then_value s = true → count_char newline s = 1.
Proof.
  induction s as [|c s IH]; [done|]. cbn [name_then_value count_char].
  destruct (Ascii.eqb_spec c "=") as [->|Hc].
  - destruct s as [|q body]; [done|].
    intros [Hq Hbody]%andb_true_iff. apply Ascii.eqb_eq in Hq as ->.
    cbn [count_char]. rewrite (value_then_eol_newlines _ Hbody). reflexivity.
  - destruct (Ascii.eqb c dquote); [done|].
    destruct (Ascii.eqb c newline); [done|]. cbn [orb]. intros H. by rewrite IH.
Qed.

Lemma value_then_eol_clean value :
  count_char dquote value = 0 → count_char newline value = 0 →
  value_then_eol (value +:+ String dquote (String newline "")) = true.
Proof.
  induction value as [|c s IH]; [done|].
  rewrite string_app_cons. cbn [count_char value_then_eol].
  destruct (Ascii.eqb c dquote); [done|].
  destruct (Ascii.eqb c newline); [done|]. apply IH.
Qed.

Lemma name_then_value_clean name rest :
  count_char "="%char name = 0 → count_char dquote name = 0 →
  count_char newline name = 0 →
  name_then_value (name +:+ String "="%char (String dquote rest)) = value_then_eol rest.
Proof.
  induction name as [|c s IH]; [done|].
  rewrite string_app_cons. cbn [count_char name_then_value].
  destruct (Ascii.eqb c "="); [done|].
  destruct (Ascii.eqb c dquote); [done|].
  destruct (Ascii.eqb c newline); [done|]. apply IH.
Qed.

Lemma name_then_value_no_equals name rest :
  name_then_value (name +:+ String "="%char rest) = true →
  count_char dquote name = 0 →
  count_char "="%char name = 0.
Proof.
  induction name as [|c s IH]; [done|].
  rewrite string_app_cons. cbn [count_char name_then_value].
  destruct (Ascii.eqb_spec c "=") as [->|Hc].
  - destruct s as [|q s]; [done|].
    rewrite string_app_cons. cbn [count_char].
    destruct (Ascii.eqb q dquote); [lia | done].
  - destruct (Ascii.eqb c dquote); [done|].
    destruct (Ascii.eqb c newline); [done|]. apply IH.
Qed.

Lemma env_file_line_newlines key value :
  count_char newline (env_file_line key value)
  = count_char newline key + 1 + count_char newline value.
Proof.
  unfold env_file_line. rewrite !count_char_app. cbn [count_char].
  rewrite count_char_app. cbn. lia.
Qed.

(** X11: the text that the f-string of the Linux loop builds from a name
    and a value has the shape [NAME="VALUE"] exactly when the name is
    not empty and has no [=], double quote or line break in it and the
    value has no double quote and no line break. *)
Theorem env_file_line_well_formed_iff key value :
  well_formed_line (env_file_line key value) = clean_name key && clean_value value.
Proof.
  destruct (well_formed_line (env_file_line key value)) eqn:Hwf; symmetry.
  - pose proof (well_formed_line_quotes _ Hwf) as Hq.
    rewrite env_file_line_quotes in Hq.
    unfold well_formed_line in Hwf.
    destruct (env_file_line key value) as [|c line] eqn:Hline; [done|].
    apply andb_true_iff in Hwf as [Hhead Hname]. rewrite <- Hline in Hname.
    pose proof (name_then_value_newlines _ Hname) as Hn.
    rewrite env_file_line_newlines in Hn.
    apply andb_true_iff. split; apply bool_decide_eq_true.
    + split_and!; [| |lia|lia].
      * intros ->. cbn in Hline. injection Hline as <- _. done.
      * apply (name_then_value_no_equals _ _ Hname). lia.
    + split; lia.
  - apply not_true_iff_false. intros [Hk Hv]%andb_true_iff.
    apply bool_decide_eq_true in Hk as (Hne & Heq & Hq & Hn).
    apply bool_decide_eq_true in Hv as (Hvq & Hvn).
    apply not_true_iff_false in Hwf. apply Hwf.
    unfold well_formed_line, env_file_line.
    destruct key as [|c key]; [done|].
    rewrite string_app_cons.
    apply andb_true_iff. split.
    + cbn [count_char] in Heq. destruct (Ascii.eqb c "="); [done|done].
    + rewrite <- string_app_cons.
      change ("=" +:+ String dquote (value +:+ String dquote (String newline "")))
        with (String "="%char (String dquote (value +:+ String dquote (String newline "")))).
      rewrite name_then_value_clean by done.
      by apply value_then_eol_clean.
Qed.

(** ** The procedure over any dictionary *)

Lemma checked_step_accepted key value w :
  environ_accepts key value = true →
  (environ_setitem_checked key value ;; print (msg_process key)) w
  = (environ_setitem key value ;; print (msg_process key)) w.
Proof. intros H. unfold mbind, py_bind, environ_setitem_checked. by rewrite H. Qed.


Lemma for_items_cons body key value rest w :
  for_items ((key, value) :: rest) body w
  = match body key value w with
    | (Return _, w') => for_items rest body w'
    | (Raise e, w') => (Raise e, w')
    end.
Proof. reflexivity. Qed.

(** Over accepted entries the first loop is the one of [set_env_vars]. *)
Lemma for_items_checked_accepted d w :
  accepted d →
  for_items d (λ key value,
    environ_setitem_checked key value ;; print (msg_process key)) w
  = for_items d (λ key value,
      environ_setitem key value ;; print (msg_process key)) w.
Proof.
  intros Hd. revert w. induction Hd as [|[k v] d Hkv _ IH]; intros w; [done|].
  rewrite !for_items_cons. cbn beta. cbn [fst snd] in Hkv.
  rewrite checked_step_accepted by done.
  destruct ((environ_setitem k v ;; print (msg_process k)) w) as [[[]|e] w']; [|done].
  apply IH.
Qed.


Lemma env_vars_accepted : accepted env_vars.
Proof. unfold accepted. apply (bool_decide_unpack _). vm_compute. exact I. Qed.

Lemma set_env_vars_from_closed d h w :
  accepted d →
  set_env_vars_from d h w =
    (outcome h,
     World (assign_all d (environ w))
           (persisted_files_from d h (files w))
           (trace w ++ process_events d ++ persistence_events_from d h)).
Proof.
  intros Hd.
  unfold set_env_vars_from, outcome, persisted_files_from, persistence_events_from, classify.
  rewrite py_bind_unfold, for_items_checked_accepted, for_items_process by done.
  destruct (String.eqb (sys_platform h) "win32").
  { rewrite for_items_windows. cbn [environ files trace].
    by rewrite <- app_assoc. }
  destruct (startswith (sys_platform h) "linux"); cycle 1.
  { unfold mret, py_ret. by rewrite app_nil_r. }
  unfold with_open_append, open_append.
  destruct (may_append h etc_environment); cbn [log environ files trace].
  - rewrite for_items_linux by (cbn; rewrite lookup_insert_eq; eauto).
    unfold file_close, log. cbn [snd environ files trace]. do 2 f_equal.
    + by rewrite content_insert, insert_insert_eq.
    + by rewrite <- !app_assoc.
  - unfold log. cbn [environ files trace]. by rewrite <- app_assoc.
Qed.

(** With the literal dictionary the procedure over any dictionary is
    [set_env_vars]: none of its entries is refused. *)
Lemma set_env_vars_from_env_vars h w :
  set_env_vars_from env_vars h w = set_env_vars h w.
Proof.
  by rewrite set_env_vars_from_closed, set_env_vars_closed by apply env_vars_accepted.
Qed.

Lemma effects_from_closed d h w :
  accepted d →
  effects_from d h w = process_events d ++ persistence_events_from d h.
Proof.
  intros Hd. unfold effects_from. rewrite set_env_vars_from_closed by done.
  cbn [snd trace]. by rewrite drop_app_length.
Qed.


Lemma printed_windows_events d :
  printed (windows_events d) = map msg_windows d.*1.
Proof. induction d as [|[k v] d IH]; cbn; by f_equal. Qed.

Lemma printed_write_events path d :
  printed (write_events path d) = map msg_linux d.*1.
Proof. induction d as [|[k v] d IH]; cbn; by f_equal. Qed.

Lemma printed_process_events_keys d :
  printed (process_events d) = map msg_process d.*1.
Proof. induction d as [|[k v] d IH]; cbn; by f_equal. Qed.

Lemma count_char_env_file_block d :
  count_char newline (env_file_block d) = length d + inner_newlines d.
Proof.
  induction d as [|[k v] d IH]; [done|].
  cbn [env_file_block inner_newlines foldr fst snd length].
  fold (env_file_block d). fold (inner_newlines d).
  rewrite count_char_app, env_file_line_newlines, IH. lia.
Qed.



(** X12: on every platform but [win32], whatever dictionary of accepted
    entries is bound to [env_vars] when the procedure runs, the
    environment table afterwards is that dictionary laid over the
    earlier table: the dictionary's names have the dictionary's values
    and every other name is as before, also when the persistence phase
    fails. *)
Theorem dictionary_overlays_environ d h w :
  sys_platform h ≠ "win32" →
  NoDup d.*1 →
  accepted d →
  environ (set_env_vars_from d h w).2 = list_to_map d ∪ environ w.
Proof.
  intros _ Hnd Hd. rewrite set_env_vars_from_closed by done. cbn [snd environ].
  rewrite assign_all_union. f_equal.
  symmetry. apply list_to_map_proper; [done|].
  symmetry. apply reverse_Permutation.
Qed.

Lemma dictionary_overlays_environ_witness :
  environ (set_env_vars_from [("HOME", "/srv"); ("LANG", "C")]
             readonly_linux_host busy_world).2
  = list_to_map [("HOME", "/srv"); ("LANG", "C")] ∪ environ busy_world.
Proof.
  apply dictionary_overlays_environ.
  - discriminate.
  - apply (bool_decide_unpack _). vm_compute. exact I.
  - unfold accepted. apply (bool_decide_unpack _). vm_compute. exact I.
Defined.

(** X13: with an empty dictionary the first loop does nothing, but the
    persistence phase still runs.  On a Linux-classified platform the
    file is opened and closed with nothing written, which creates it,
    empty, when it was missing, and a refused open still ends the run
    with its error; on any other platform the run has no effect at
    all. *)
Theorem empty_dictionary_still_opens_the_file h w :
  environ (set_env_vars_from [] h w).2 = environ w ∧
  printed (effects_from [] h w) = [] ∧
  (classify (sys_platform h) ≠ Linux → set_env_vars_from [] h w = (Return (), w)) ∧
  (classify (sys_platform h) = Linux → may_append h etc_environment = true →
     effects_from [] h w = [Open etc_environment "a"; Close etc_environment] ∧
     files (set_env_vars_from [] h w).2 !! etc_environment
     = Some (content (files w) etc_environment)) ∧
  (classify (sys_platform h) = Linux → may_append h etc_environment = false →
     (set_env_vars_from [] h w).1 = Raise (OSError etc_environment)).
Proof.
  assert (accepted []) as Hnil by constructor.
  rewrite effects_from_closed, set_env_vars_from_closed by done.
  unfold persistence_events_from, persisted_files_from, outcome.
  cbn [fst snd environ files assign_all foldl process_events flat_map app
       windows_events write_events env_file_block foldr].
  split_and!.
  - done.
  - destruct (classify _); [| destruct (may_append _ _) |]; reflexivity.
  - intros Hk. destruct w as [env fs tr].
    destruct (classify _); [| done |]; cbn; by rewrite app_nil_r.
  - intros -> ->. split; [done|].
    by rewrite lookup_insert_eq, string_app_nil_r.
  - by intros -> ->.
Qed.

Lemma empty_dictionary_still_opens_the_file_witness :
  files (set_env_vars_from [] linux_host empty_world).2 !! etc_environment = Some "" ∧
  set_env_vars_from [] windows_host busy_world = (Return (), busy_world).
Proof.
  destruct (empty_dictionary_still_opens_the_file linux_host empty_world)
    as (_ & _ & _ & Hlinux & _).
  destruct (empty_dictionary_still_opens_the_file windows_host busy_world)
    as (_ & _ & Hwin & _).
  split.
  - destruct (Hlinux eq_refl eq_refl) as [_ Hfile]. exact Hfile.
  - apply Hwin. discriminate.
Defined.

(** X14: the progress output names the variables and never shows a
    value: on one host other than [win32], two dictionaries of accepted
    entries with the same names in the same order give the same printed
    lines, whatever their values and whatever the worlds the runs start
    in. *)
Theorem progress_output_hides_values d1 d2 h w1 w2 :
  sys_platform h ≠ "win32" →
  accepted d1 →
  accepted d2 →
  d1.*1 = d2.*1 →
  printed (effects_from d1 h w1) = printed (effects_from d2 h w2).
Proof.
  intros _ Hd1 Hd2 Hnames. rewrite !effects_from_closed by done. unfold printed.
  rewrite !omap_app. fold printed. rewrite !printed_process_events_keys, Hnames.
  f_equal. unfold persistence_events_from.
  destruct (classify _); [| destruct (may_append _ _) |].
  - by rewrite !printed_windows_events, Hnames.
  - unfold printed. rewrite !omap_app. fold printed.
    by rewrite !printed_write_events, Hnames.
  - done.
  - done.
Qed.

Lemma progress_output_hides_values_witness :
  printed (effects_from [("DB_PASSWORD", "hunter2")] linux_host empty_world)
  = printed (effects_from [("DB_PASSWORD", "correct horse")] linux_host busy_world).
Proof.
  apply progress_output_hides_values.
  - discriminate.
  - unfold accepted. apply (bool_decide_unpack _). vm_compute. exact I.
  - unfold accepted. apply (bool_decide_unpack _). vm_compute. exact I.
  - reflexivity.
Defined.

(** X15: on a Linux-classified platform that permits the open, the run
    over a dictionary of accepted entries adds to [/etc/environment] one
    line break per entry plus one for every line break inside a name or
    a value: a value that spans lines makes the file grow by more lines
    than there are entries. *)
Theorem newlines_in_values_add_lines d h w :
  classify (sys_platform h) = Linux →
  may_append h etc_environment = true →
  accepted d →
  count_char newline (content (files (set_env_vars_from d h w).2) etc_environment)
  = count_char newline (content (files w) etc_environment)
    + length d + inner_newlines d.
Proof.
  intros Hk Hopen Hd. rewrite set_env_vars_from_closed by done. cbn [snd files].
  unfold persisted_files_from. rewrite Hk, Hopen, content_insert.
  rewrite count_char_app, count_char_env_file_block. lia.
Qed.

Lemma newlines_in_values_add_lines_witness :
  count_char newline
    (content (files (set_env_vars_from [("MOTD", "hello" +:+ String newline "world")]
                       linux_host empty_world).2) etc_environment)
  = 2.
Proof.
  rewrite (newlines_in_values_add_lines _ linux_host empty_world eq_refl eq_refl).
  - reflexivity.
  - unfold accepted. apply (bool_decide_unpack _). vm_compute. exact I.
Defined.
